(** * StoryBrush: the turn-taking controller of [App]

    A shallow embedding of the state machine of the StoryBrush client:
    the Gemini service wrappers ([startStorySession],
    [sendMessageToWriter], [generateIllustration]) and the handlers of the
    [App] component ([addMessage], [handleNewStory], [handleUserSend]).

    The asynchronous handlers are embedded in a state-and-exception monad:
    a handler is run to completion, every [await] being answered by the
    environment [Env].  The same handler is also cut at its awaits
    ([handleUserSend_start], [handleUserSend_resume]), for the states the
    component goes through while calls are pending and a reset or another
    submit lands in between.  The spec's phase [AwaitingArt] is the
    source's [AppState.WaitingForArt]. *)

From Stdlib Require Import ZArith.
From stdpp Require Import base list strings.

Local Open Scope string_scope.
Local Open Scope list_scope.

(** ** 1. Types and configuration *)

Inductive Sender := User | Assistant.

Inductive MessageType := Text | Image.

Record Message := {
  id : string;
  sender : Sender;
  type : MessageType;
  content : string;      (* text content or Base64 image data *)
  timestamp : Z;
}.

Inductive AppState :=
| Setup            (* waiting for story topic *)
| Writing          (* AI is writing a chapter *)
| WaitingForArt    (* AI waiting for user prompt *)
| Painting.        (* AI generating image *)

(** Characters that a Rocq string literal cannot hold directly. *)
Definition nl : string := String (Ascii.ascii_of_nat 10) EmptyString.
Definition dq : string := String (Ascii.ascii_of_nat 34) EmptyString.

(** ** 2. The outside world *)

(** A settled promise, or equally the result of a call that may throw.
    A JavaScript error is represented by its message. *)
Inductive Outcome (A : Type) :=
| Resolved (a : A)
| Rejected (error : string).
Arguments Resolved {A} a.
Arguments Rejected {A} error.

(** The part of a [GenerateContentResponse] that the client reads. *)
Module GenAI.
Record Blob := { mimeType : option string; data : option string }.
Record Part := { inlineData : option Blob }.
Record Content := { parts : option (list Part) }.
Record Candidate := { content : option Content }.
Record GenerateContentResponse := { candidates : option (list Candidate) }.
End GenAI.

(** A [Chat] object.  The provider keeps the conversation behind it; the
    model keeps the creation number of the object and the messages that
    were sent through it, oldest first. *)
Record Chat := {
  chat_id : nat;
  sent : list string;
}.

(** What the environment answers.  Each answer may depend on everything
    the same service was asked before, so that a repeated request can be
    answered differently.
    - [chat_sendMessage c m]: [chatSession.sendMessage({message: m})] on
      the chat [c]; a resolved call yields [response.text], which may be
      undefined.
    - [models_generateContent ps p]: [ai.models.generateContent] with
      prompt [p] after the earlier prompts [ps].
    - [Math_random n]: the base-36 rendering
      [Math.random().toString(36)] of the n-th draw.
    - [Date_now n]: the n-th reading of [Date.now()]. *)
Record Env := {
  chat_sendMessage : Chat -> string -> Outcome (option string);
  models_generateContent :
    list string -> string -> Outcome GenAI.GenerateContentResponse;
  Math_random : nat -> string;
  Date_now : nat -> Z;
}.

(** The state of the program: the three [useState] cells of [App], the
    module variable [chatSession], and the bookkeeping of the calls made
    to the outside. *)
Record State := {
  messages : list Message;
  appState : AppState;
  lastChapterText : string;
  chatSession : option Chat;
  chats : nat;                 (* chats created by [ai.chats.create] *)
  painted : list string;       (* prompts given to [generateContent] *)
  draws : nat;                 (* calls of [Math.random] *)
  ticks : nat;                 (* calls of [Date.now] *)
  console : list string;       (* lines of [console.error] *)
}.

(** ** 3. The monad of handlers *)

Definition M (A : Type) : Type := State -> Outcome A * State.

Definition ret {A} (a : A) : M A := fun s => (Resolved a, s).

Definition bind {A B} (m : M A) (k : A -> M B) : M B :=
  fun s =>
    match m s with
    | (Resolved a, s') => k a s'
    | (Rejected e, s') => (Rejected e, s')
    end.

Definition throw {A} (e : string) : M A := fun s => (Rejected e, s).

(** [try { m } catch (error) { h error }]: the effects of [m] up to the
    throw are kept. *)
Definition try_catch {A} (m : M A) (h : string -> M A) : M A :=
  fun s =>
    match m s with
    | (Resolved a, s') => (Resolved a, s')
    | (Rejected e, s') => h e s'
    end.

Definition gets {A} (f : State -> A) : M A := fun s => (Resolved (f s), s).

Definition modify (f : State -> State) : M unit :=
  fun s => (Resolved tt, f s).

Declare Scope handler_scope.
Delimit Scope handler_scope with handler.
Bind Scope handler_scope with M.
Notation "x <- m ;; k" := (bind m (fun x => k))
  (at level 100, m at next level, right associativity) : handler_scope.
Notation "m ;; k" := (bind m (fun _ => k))
  (at level 100, right associativity) : handler_scope.
Notation "'try' m 'catch' h" := (try_catch m h)
  (at level 99, m at level 100, h at level 9) : handler_scope.
Local Open Scope handler_scope.

(** Writes to single cells of the state. *)
Definition set_messages (f : list Message -> list Message) (s : State) :=
  {| messages := f (messages s); appState := appState s;
     lastChapterText := lastChapterText s; chatSession := chatSession s;
     chats := chats s; painted := painted s; draws := draws s;
     ticks := ticks s; console := console s |}.

Definition set_appState (a : AppState) (s : State) :=
  {| messages := messages s; appState := a;
     lastChapterText := lastChapterText s; chatSession := chatSession s;
     chats := chats s; painted := painted s; draws := draws s;
     ticks := ticks s; console := console s |}.

Definition set_lastChapterText (t : string) (s : State) :=
  {| messages := messages s; appState := appState s;
     lastChapterText := t; chatSession := chatSession s;
     chats := chats s; painted := painted s; draws := draws s;
     ticks := ticks s; console := console s |}.

Definition set_chatSession (c : option Chat) (s : State) :=
  {| messages := messages s; appState := appState s;
     lastChapterText := lastChapterText s; chatSession := c;
     chats := chats s; painted := painted s; draws := draws s;
     ticks := ticks s; console := console s |}.

Definition set_chats (n : nat) (s : State) :=
  {| messages := messages s; appState := appState s;
     lastChapterText := lastChapterText s; chatSession := chatSession s;
     chats := n; painted := painted s; draws := draws s;
     ticks := ticks s; console := console s |}.

Definition set_painted (ps : list string) (s : State) :=
  {| messages := messages s; appState := appState s;
     lastChapterText := lastChapterText s; chatSession := chatSession s;
     chats := chats s; painted := ps; draws := draws s;
     ticks := ticks s; console := console s |}.

Definition set_draws (n : nat) (s : State) :=
  {| messages := messages s; appState := appState s;
     lastChapterText := lastChapterText s; chatSession := chatSession s;
     chats := chats s; painted := painted s; draws := n;
     ticks := ticks s; console := console s |}.

Definition set_ticks (n : nat) (s : State) :=
  {| messages := messages s; appState := appState s;
     lastChapterText := lastChapterText s; chatSession := chatSession s;
     chats := chats s; painted := painted s; draws := draws s;
     ticks := n; console := console s |}.

Definition set_console (ls : list string) (s : State) :=
  {| messages := messages s; appState := appState s;
     lastChapterText := lastChapterText s; chatSession := chatSession s;
     chats := chats s; painted := painted s; draws := draws s;
     ticks := ticks s; console := ls |}.

(** JavaScript truthiness of a possibly undefined string, and its
    rendering inside a template literal. *)
Definition truthy (o : option string) : bool :=
  match o with
  | Some (String _ _) => true
  | _ => false
  end.

Definition render (o : option string) : string :=
  match o with
  | Some t => t
  | None => "undefined"
  end.

Section Program.

Variable env : Env.

(** *** Primitive calls *)

Definition random : M string :=
  n <- gets draws ;;
  modify (set_draws (S n)) ;;
  ret (Math_random env n).

Definition now : M Z :=
  n <- gets ticks ;;
  modify (set_ticks (S n)) ;;
  ret (Date_now env n).

Definition console_error (label error : string) : M unit :=
  modify (fun s => set_console (console s ++ [label +:+ " " +:+ error]) s).

(** [ai.chats.create]: a new [Chat] through which nothing was sent.  Its
    configuration (the model, [SYSTEM_INSTRUCTION], temperature 0.8) is the
    same at every call and is not recorded. *)
Definition chats_create : M Chat :=
  n <- gets chats ;;
  modify (set_chats (S n)) ;;
  ret {| chat_id := n; sent := [] |}.

(** [chatSession.sendMessage({ message })] on the chat [c] that
    [chatSession] refers to; the chat remembers the message. *)
Definition sendMessage (c : Chat) (message : string) : M (option string) :=
  modify (set_chatSession
            (Some {| chat_id := chat_id c; sent := sent c ++ [message] |})) ;;
  match chat_sendMessage env c message with
  | Resolved text => ret text
  | Rejected e => throw e
  end.

Definition generateContent (prompt : string)
  : M GenAI.GenerateContentResponse :=
  ps <- gets painted ;;
  modify (set_painted (ps ++ [prompt])) ;;
  match models_generateContent env ps prompt with
  | Resolved response => ret response
  | Rejected e => throw e
  end.

(** ** 4. The Gemini service *)

Definition startStorySession : M Chat :=
  c <- chats_create ;;
  modify (set_chatSession (Some c)) ;;
  ret c.

Definition writer_fallback : string :=
  "I'm having trouble writing right now. Let's try again.".

Definition sendMessageToWriter (message : string) : M string :=
  session <- gets chatSession ;;
  match session with
  | None => throw "Chat session not initialized."
  | Some c =>
      try (text <- sendMessage c message ;;
           ret (if truthy text then render text else writer_fallback))
      catch (fun error =>
           console_error "Error sending message to writer:" error ;;
           throw error)
  end.

Definition illustration_prompt (userDescription storyContext : string)
  : string :=
  nl +:+
  "      Create a high-quality photorealistic image." +:+ nl +:+
  "      Scene Description: " +:+ userDescription +:+ nl +:+
  "      Story Context: " +:+ storyContext +:+ nl +:+
  "      Directives:" +:+ nl +:+
  "      1. **Style**: Photorealistic, cinematic lighting, 8k resolution, highly detailed, photography style." +:+ nl +:+
  "      2. **Mood**: Adapt the lighting and atmosphere to the story's genre, but maintain a realistic look." +:+ nl +:+
  "      3. **Character Consistency**: Ensure the main characters match previous descriptions in the context." +:+ nl +:+
  "    ".

(** [response.candidates?.[0]?.content?.parts || []] *)
Definition response_parts (response : GenAI.GenerateContentResponse)
  : list GenAI.Part :=
  match GenAI.candidates response with
  | Some (candidate :: _) =>
      match GenAI.content candidate with
      | Some c => default [] (GenAI.parts c)
      | None => []
      end
  | _ => []
  end.

(** The [for] loop over the parts: the first part with inline data is
    returned as a data URI. *)
Fixpoint first_inline (ps : list GenAI.Part) : option string :=
  match ps with
  | [] => None
  | part :: rest =>
      match GenAI.inlineData part with
      | Some blob =>
          Some ("data:" +:+ render (GenAI.mimeType blob) +:+ ";base64,"
                +:+ render (GenAI.data blob))
      | None => first_inline rest
      end
  end.

Definition generateIllustration (userDescription storyContext : string)
  : M string :=
  try (let prompt := illustration_prompt userDescription storyContext in
       response <- generateContent prompt ;;
       match first_inline (response_parts response) with
       | Some uri => ret uri
       | None => throw "No image generated."
       end)
  catch (fun error =>
       console_error "Error generating illustration:" error ;;
       throw error).

(** ** 5. The [App] component *)

(** [Math.random().toString(36).substr(2, 9)] *)
Definition id_of (rendering : string) : string := String.substring 2 9 rendering.

Definition generateId : M string :=
  r <- random ;;
  ret (id_of r).

Definition INITIAL_content : string :=
  "Hello! I am **StoryBrush**, your creative partner. " +:+ nl +:+ nl +:+
  "I'm ready to write a new book with you. It can be any genre—Fantasy, Sci-Fi, Mystery, Romance, Horror, or anything you like! " +:+ nl +:+ nl +:+
  "What should our story be about?".

(** The greeting is built once, when the module is loaded: its timestamp
    is the first reading of the clock. *)
Definition INITIAL_MESSAGE : Message :=
  {| id := "init"; sender := Assistant; type := Text;
     content := INITIAL_content; timestamp := Date_now env 0 |}.

Definition addMessage (sender : Sender) (type : MessageType)
    (content : string) : M unit :=
  i <- generateId ;;
  t <- now ;;
  modify (set_messages (fun prev =>
    prev ++ [ {| id := i; sender := sender; type := type;
                 content := content; timestamp := t |} ])).

Definition setAppState (a : AppState) : M unit := modify (set_appState a).

Definition setLastChapterText (t : string) : M unit :=
  modify (set_lastChapterText t).

Definition handleNewStory : M unit :=
  modify (set_messages (fun _ => [INITIAL_MESSAGE])) ;;
  setAppState Setup ;;
  setLastChapterText "" ;;
  startStorySession ;;
  ret tt.

Definition setup_prompt (text : string) : string :=
  "The story is about: " +:+ text +:+ ". Let's begin!".

Definition nextChapterPrompt (text : string) : string :=
  "The Art Director has provided the illustration for the previous chapter. It depicts: "
  +:+ dq +:+ text +:+ dq +:+ ". Please write the next chapter now.".

Definition setup_apology : string :=
  "I encountered an issue starting the story. Please try again.".

Definition art_apology : string :=
  "I was unable to generate that illustration. Could you provide a different description?".

(** The handler reads [appState] and [lastChapterText] from the render it
    was created in, that is, as they are when it is called. *)
Definition handleUserSend (text : string) : M unit :=
  phase <- gets appState ;;
  context <- gets lastChapterText ;;
  match phase with
  | Setup =>
      addMessage User Text text ;;
      setAppState Writing ;;
      try (response <- sendMessageToWriter (setup_prompt text) ;;
           addMessage Assistant Text response ;;
           setLastChapterText response ;;
           setAppState WaitingForArt)
      catch (fun _ =>
           addMessage Assistant Text setup_apology ;;
           setAppState Setup)
  | WaitingForArt =>
      addMessage User Text text ;;
      setAppState Painting ;;
      try (imageUrl <- generateIllustration text context ;;
           addMessage Assistant Image imageUrl ;;
           setAppState Writing ;;
           nextChapterResponse <- sendMessageToWriter (nextChapterPrompt text) ;;
           addMessage Assistant Text nextChapterResponse ;;
           setLastChapterText nextChapterResponse ;;
           setAppState WaitingForArt)
      catch (fun _ =>
           addMessage Assistant Text art_apology ;;
           setAppState WaitingForArt)
  | Writing | Painting => ret tt
  end.

End Program.

(** ** 6. Sessions *)

Section Sessions.

Variable env : Env.

(** The state of the first render, before the mount effect has run. *)
Definition unmounted : State :=
  {| messages := [INITIAL_MESSAGE env]; appState := Setup;
     lastChapterText := ""; chatSession := None; chats := 0;
     painted := []; draws := 0; ticks := 1; console := [] |}.

(** [useEffect(() => { startStorySession(); }, [])] *)
Definition mounted : State := snd (startStorySession unmounted).

(** The states in which the component rests when no command lands inside
    another: the mounted component, and what the two commands of the
    interface leave when each has run to completion before the next one
    starts.  The states that the component goes through with calls
    pending, and those in which it rests after a reset has landed inside a
    submit, are those of [live_reachable] below, which includes these
    ([reachable_live]). *)
Inductive reachable : State -> Prop :=
| reachable_mounted : reachable mounted
| reachable_send text s :
    reachable s -> reachable (snd (handleUserSend env text s))
| reachable_newStory s :
    reachable s -> reachable (snd (handleNewStory env s)).

(** The record that [addMessage] builds from the [d]-th random draw and
    the [t]-th reading of the clock. *)
Definition stamped (d t : nat) (sender : Sender) (type : MessageType)
    (content : string) : Message :=
  {| id := id_of (Math_random env d); sender := sender;
     type := type; content := content; timestamp := Date_now env t |}.

(** What [sendMessageToWriter] answers, as a function of the session
    variable alone. *)
Definition writer_answer (session : option Chat) (message : string)
  : Outcome string :=
  match session with
  | None => Rejected "Chat session not initialized."
  | Some c =>
      match chat_sendMessage env c message with
      | Resolved text =>
          Resolved (if truthy text then render text else writer_fallback)
      | Rejected e => Rejected e
      end
  end.

(** What [generateIllustration] answers, as a function of the earlier
    prompts alone. *)
Definition illustrator_answer (earlier : list string)
    (userDescription storyContext : string) : Outcome string :=
  match models_generateContent env earlier
          (illustration_prompt userDescription storyContext) with
  | Resolved response =>
      match first_inline (response_parts response) with
      | Some uri => Resolved uri
      | None => Rejected "No image generated."
      end
  | Rejected e => Rejected e
  end.

End Sessions.

(** ** 7. Sample environments *)

Module Sample.

Definition image : GenAI.GenerateContentResponse :=
  {| GenAI.candidates := Some
       [ {| GenAI.content := Some
              {| GenAI.parts := Some
                   [ {| GenAI.inlineData := None |};
                     {| GenAI.inlineData := Some
                          {| GenAI.mimeType := Some "image/png";
                             GenAI.data := Some "iVBORw0KGgo=" |} |} ] |} |} ] |}.

Definition no_image : GenAI.GenerateContentResponse :=
  {| GenAI.candidates := Some
       [ {| GenAI.content := Some
              {| GenAI.parts := Some [ {| GenAI.inlineData := None |} ] |} |} ] |}.

Definition renderings : list string :=
  [ "0.4fzyo82mvyr"; "0.l3k5p1x9qa2"; "0.9vd0u6hw7tb"; "0.c81nq3zjr5e";
    "0.x2m7g4kfy0s"; "0.7hb9t1wd3pu" ].

(** Every draw of [Math.random] is one half, which base 36 renders as
    [0.i]. *)
Definition always_half : nat -> string := fun _ => "0.i".

Definition scripted (writer : Chat -> string -> Outcome (option string))
    (illustrator : Outcome GenAI.GenerateContentResponse)
    (rendering : nat -> string) : Env :=
  {| chat_sendMessage := writer;
     models_generateContent := fun _ _ => illustrator;
     Math_random := rendering;
     Date_now := fun n => (1762041600000 + Z.of_nat n)%Z |}.

Definition writer_up : Chat -> string -> Outcome (option string) :=
  fun _ _ => Resolved (Some "Chapter One").

Definition writer_down : Chat -> string -> Outcome (option string) :=
  fun _ _ => Rejected "503 Service Unavailable".

(** Answers the first message of a chat and fails afterwards. *)
Definition writer_once : Chat -> string -> Outcome (option string) :=
  fun c _ =>
    match sent c with
    | [] => Resolved (Some "Chapter One")
    | _ => Rejected "503 Service Unavailable"
    end.

Definition writer_silent : Chat -> string -> Outcome (option string) :=
  fun _ _ => Resolved (Some "").

Definition distinct (n : nat) : string := nth n renderings "0.i".

Definition all_up : Env := scripted writer_up (Resolved image) distinct.
Definition no_writer : Env := scripted writer_down (Resolved image) distinct.
Definition one_chapter : Env := scripted writer_once (Resolved image) distinct.
Definition no_painter : Env := scripted writer_up (Resolved no_image) distinct.
Definition silent : Env := scripted writer_silent (Resolved image) distinct.
Definition halves : Env := scripted writer_up (Resolved image) always_half.

(** The state after the topic "a pirate adventure" was submitted. *)
Definition first_chapter (env : Env) : State :=
  snd (handleUserSend env "a pirate adventure" (mounted env)).

End Sample.

(** ** The [InputArea] component and its wiring in [App] *)

(** What the page holds: the state of [App] and the [input] cell of
    [InputArea]. *)
Record Page := {
  app : State;
  input : string;
}.

(** [disabled={appState === AppState.Writing || appState === AppState.Painting}] *)
Definition App_disabled (a : AppState) : bool :=
  match a with
  | Writing | Painting => true
  | Setup | WaitingForArt => false
  end.

Definition getPlaceholder (a : AppState) : string :=
  match a with
  | Setup => "Example: A cyber-noir thriller in Neo-Tokyo..."
  | WaitingForArt =>
      "Describe the scene (e.g., 'A cloaked figure in the rain')..."
  | Writing => "StoryBrush is writing..."
  | Painting => "Creating artwork..."
  end.

Inductive Icon := Paintbrush | Send.

Definition getButtonIcon (a : AppState) : Icon :=
  match a with
  | WaitingForArt => Paintbrush
  | _ => Send
  end.

Definition getButtonText (a : AppState) : string :=
  match a with
  | WaitingForArt => "Illustrate"
  | _ => "Send"
  end.

(** The condition under which the mount and update effect of [InputArea]
    focuses the input. *)
Definition focuses (a : AppState) (disabled : bool) : bool :=
  negb disabled &&
  match a with
  | Setup | WaitingForArt => true
  | _ => false
  end.

Section InputArea.

(** [String.prototype.trim], of which nothing is assumed. *)
Variable trim : string -> string.

(** [onChange={(e) => setInput(e.target.value)}] *)
Definition setInput (value : string) (p : Page) : Page :=
  {| app := app p; input := value |}.

(** The form's [onSubmit].  The promise that [onSend] returns is not
    awaited; the handler behind it is run to completion. *)
Definition handleSubmit (onSend : string -> M unit) (disabled : bool)
    (p : Page) : Page :=
  if truthy (Some (trim (input p))) && negb disabled
  then {| app := snd (onSend (trim (input p)) (app p)); input := "" |}
  else p.

(** [disabled={disabled || !input.trim()}] of the submit button. *)
Definition button_disabled (disabled : bool) (p : Page) : bool :=
  disabled || negb (truthy (Some (trim (input p)))).

Variable env : Env.

(** The form as [App] renders it:
    [<InputArea onSend={handleUserSend} appState={appState} disabled={...} />]. *)
Definition submitForm (p : Page) : Page :=
  handleSubmit (handleUserSend env) (App_disabled (appState (app p))) p.

(** The New Story button: [onClick={handleNewStory}]. *)
Definition clickNewStory (p : Page) : Page :=
  {| app := snd (handleNewStory env (app p)); input := input p |}.

(** The pages in which the interface rests when no command lands inside
    another: the mounted page with an empty input, and what typing,
    submitting the form and the New Story button make of such a page, each
    submit having run to completion. *)
Inductive page_reachable : Page -> Prop :=
| page_mounted : page_reachable {| app := mounted env; input := "" |}
| page_typed value p :
    page_reachable p -> page_reachable (setInput value p)
| page_submitted p :
    page_reachable p -> page_reachable (submitForm p)
| page_newStory p :
    page_reachable p -> page_reachable (clickNewStory p).

End InputArea.

(** ** Vocabulary of the invariants *)

(** The chapter text kept as context for the next illustration is the
    content of an Assistant/Text record of the log. *)
Definition chapter_shown (s : State) : Prop :=
  exists m, m ∈ messages s /\ sender m = Assistant /\ type m = Text /\
            content m = lastChapterText s.

(** The state in which the component rests between two commands when no
    command lands inside another: either no story has begun and there is
    no chapter text, or a chapter is shown and awaits its illustration. *)
Definition at_rest (s : State) : Prop :=
  (appState s = Setup /\ lastChapterText s = "") \/
  (appState s = WaitingForArt /\ chapter_shown s).

(** White space of ASCII text, and a [trim] for it. *)
Definition ascii_space (a : Ascii.ascii) : bool :=
  let n := Ascii.nat_of_ascii a in
  Nat.eqb n 32 || (Nat.leb 9 n && Nat.leb n 13).

Fixpoint drop_spaces (l : list Ascii.ascii) : list Ascii.ascii :=
  match l with
  | a :: r => if ascii_space a then drop_spaces r else l
  | [] => []
  end.

Definition ascii_trim (s : string) : string :=
  String.string_of_list_ascii
    (rev (drop_spaces (rev (drop_spaces (String.list_ascii_of_string s))))).

(** The mounted page of the sample environment [Sample.all_up] after
    [value] was typed.  *)
Module SamplePage.
Definition typing (value : string) : Page :=
  setInput value {| app := mounted Sample.all_up; input := "" |}.
End SamplePage.

(** ** The handlers, await by await

    [handleUserSend] suspends at its awaits (the Writer call of phase
    Setup, the Illustrator call, the chained Writer call), and the New
    Story button is never disabled: a reset, or another submit, can land
    while a call is pending.  Here the handler is cut at its awaits.  A
    call is answered by the environment when it is made; the answer waits
    in [pending] until it is delivered. *)

Inductive Pending :=
| AwaitFirstChapter (answer : Outcome (option string))
| AwaitIllustration (text : string)
    (answer : Outcome GenAI.GenerateContentResponse)
| AwaitNextChapter (answer : Outcome (option string)).

Record Live := {
  current : State;
  pending : list Pending;
}.

Section Live.

Variable env : Env.

(** [sendMessageToWriter] up to its await: without a session nothing is
    called (the function throws); otherwise the message goes to the chat
    that [chatSession] holds at this moment. *)
Definition writer_call (message : string) (s : State)
  : option (Outcome (option string)) * State :=
  match chatSession s with
  | None => (None, s)
  | Some c =>
      (Some (chat_sendMessage env c message),
       set_chatSession
         (Some {| chat_id := chat_id c; sent := sent c ++ [message] |}) s)
  end.

(** [sendMessageToWriter] from its await on. *)
Definition writer_settle (answer : Outcome (option string)) : M string :=
  try (text <- match answer with
               | Resolved text => ret text
               | Rejected e => throw e
               end ;;
       ret (if truthy text then render text else writer_fallback))
  catch (fun error =>
       console_error "Error sending message to writer:" error ;;
       throw error).

(** [generateIllustration] up to its await, and from it on. *)
Definition illustration_call (userDescription storyContext : string)
    (s : State) : Outcome GenAI.GenerateContentResponse * State :=
  let prompt := illustration_prompt userDescription storyContext in
  (models_generateContent env (painted s) prompt,
   set_painted (painted s ++ [prompt]) s).

Definition illustration_settle
    (answer : Outcome GenAI.GenerateContentResponse) : M string :=
  try (response <- match answer with
                   | Resolved response => ret response
                   | Rejected e => throw e
                   end ;;
       match first_inline (response_parts response) with
       | Some uri => ret uri
       | None => throw "No image generated."
       end)
  catch (fun error =>
       console_error "Error generating illustration:" error ;;
       throw error).

(** What follows a Writer call inside the two [try] blocks, with the
    [catch] of each. *)
Definition first_chapter_tail (writer : M string) : M unit :=
  try (response <- writer ;;
       addMessage env Assistant Text response ;;
       setLastChapterText response ;;
       setAppState WaitingForArt)
  catch (fun _ =>
       addMessage env Assistant Text setup_apology ;;
       setAppState Setup).

Definition next_chapter_tail (writer : M string) : M unit :=
  try (nextChapterResponse <- writer ;;
       addMessage env Assistant Text nextChapterResponse ;;
       setLastChapterText nextChapterResponse ;;
       setAppState WaitingForArt)
  catch (fun _ =>
       addMessage env Assistant Text art_apology ;;
       setAppState WaitingForArt).

(** [handleUserSend] up to its first await.  As in [handleUserSend], the
    phase and the chapter text are those of the moment of the call. *)
Definition handleUserSend_start (text : string) (s : State)
  : State * option Pending :=
  match appState s with
  | Setup =>
      let s1 :=
        snd ((addMessage env User Text text ;; setAppState Writing) s) in
      match writer_call (setup_prompt text) s1 with
      | (Some answer, s2) => (s2, Some (AwaitFirstChapter answer))
      | (None, s2) =>
          (snd (first_chapter_tail
                  (throw "Chat session not initialized.") s2), None)
      end
  | WaitingForArt =>
      let s1 :=
        snd ((addMessage env User Text text ;; setAppState Painting) s) in
      let (answer, s2) := illustration_call text (lastChapterText s) s1 in
      (s2, Some (AwaitIllustration text answer))
  | Writing | Painting => (s, None)
  end.

(** [handleUserSend] from an await to the next one, or to its end.  The
    chained Writer call goes to the chat that [chatSession] holds when the
    illustration arrives. *)
Definition handleUserSend_resume (p : Pending) (s : State)
  : State * option Pending :=
  match p with
  | AwaitFirstChapter answer =>
      (snd (first_chapter_tail (writer_settle answer) s), None)
  | AwaitIllustration text answer =>
      match illustration_settle answer s with
      | (Resolved imageUrl, s1) =>
          let s2 :=
            snd ((addMessage env Assistant Image imageUrl ;;
                  setAppState Writing) s1) in
          match writer_call (nextChapterPrompt text) s2 with
          | (Some answer', s3) => (s3, Some (AwaitNextChapter answer'))
          | (None, s3) =>
              (snd (next_chapter_tail
                      (throw "Chat session not initialized.") s3), None)
          end
      | (Rejected e, s1) => (snd (next_chapter_tail (throw e) s1), None)
      end
  | AwaitNextChapter answer =>
      (snd (next_chapter_tail (writer_settle answer) s), None)
  end.

(** The three things that happen to the live component: the form submits
    a text, the New Story button is pressed, the [i]-th pending call is
    answered. *)
Definition live_send (text : string) (l : Live) : Live :=
  let (s, p) := handleUserSend_start text (current l) in
  {| current := s; pending := pending l ++ option_list p |}.

Definition live_newStory (l : Live) : Live :=
  {| current := snd (handleNewStory env (current l));
     pending := pending l |}.

Definition live_settle (i : nat) (l : Live) : Live :=
  match pending l !! i with
  | Some p =>
      let (s, q) := handleUserSend_resume p (current l) in
      {| current := s; pending := delete i (pending l) ++ option_list q |}
  | None => l
  end.

Definition live_mounted : Live := {| current := mounted env; pending := [] |}.

(** Every state the component goes through, at rest or with calls
    pending, resets and submits landing wherever they may. *)
Inductive live_reachable : Live -> Prop :=
| live_reachable_mounted : live_reachable live_mounted
| live_reachable_send text l :
    live_reachable l -> live_reachable (live_send text l)
| live_reachable_newStory l :
    live_reachable l -> live_reachable (live_newStory l)
| live_reachable_settle i l :
    live_reachable l -> live_reachable (live_settle i l).

(** The ids that [generateId] returned for the records of the log after
    the greeting: those of the last draws, as many as there are such
    records.  These are the draws made since the last reset. *)
Definition log_ids (s : State) : list string :=
  (fun d => id_of (Math_random env d)) <$>
  seq (draws s - pred (length (messages s))) (pred (length (messages s))).

End Live.

(** An environment in which the first two draws of [Math.random] are both
    one half and the later ones differ. *)
Module SampleLive.
Definition renderings : list string :=
  [ "0.i"; "0.i"; "0.9vd0u6hw7tb"; "0.c81nq3zjr5e"; "0.x2m7g4kfy0s";
    "0.7hb9t1wd3pu" ].
Definition repeats : Env :=
  Sample.scripted Sample.writer_up (Resolved Sample.image)
    (fun n => nth n renderings "0.i").
(** A topic is submitted, New Story is pressed while the Writer is at
    work, then the chapter arrives. *)
Definition late_chapter (env : Env) : Live :=
  live_settle env 0
    (live_newStory env
       (live_send env "a pirate adventure" (live_mounted env))).
(** A topic is submitted and answered, the story is reset, and a second
    topic is submitted and answered. *)
Definition second_story (env : Env) : Live :=
  live_settle env 0
    (live_send env "a space opera"
       (live_newStory env
          (live_settle env 0
             (live_send env "a pirate adventure" (live_mounted env))))).
End SampleLive.

Ltac run :=
  unfold handleUserSend, handleNewStory, sendMessageToWriter,
    generateIllustration, startStorySession, addMessage, generateId,
    setAppState, setLastChapterText, sendMessage, generateContent,
    chats_create, console_error, random, now,
    try_catch, bind, ret, throw, gets, modify.

(** Split on what the session variable holds and on what the two services
    answer. *)
Ltac answers :=
  repeat match goal with
  | |- context [models_generateContent ?e ?ps ?p] =>
      destruct (models_generateContent e ps p) eqn:?; cbn in *
  | |- context [first_inline ?ps] =>
      destruct (first_inline ps) eqn:?; cbn in *
  | |- context [match chatSession ?s with _ => _ end] =>
      destruct (chatSession s) eqn:?; cbn in *
  | |- context [chat_sendMessage ?e ?c ?m] =>
      destruct (chat_sendMessage e c m) eqn:?; cbn in *
  end.

(** Run the handler in the phase given by [Hphase], then split. *)
Ltac art_cases Hphase :=
  run; rewrite Hphase; cbn; answers; try discriminate.

(** ** 8. The two clients *)

Section Clients.

Variable env : Env.

Lemma sendMessageToWriter_outcome message s :
  fst (sendMessageToWriter env message s)
  = writer_answer env (chatSession s) message.
Proof.
  run. unfold writer_answer.
  destruct (chatSession s) as [c|]; [|reflexivity].
  cbn. destruct (chat_sendMessage env c message); reflexivity.
Qed.

Lemma generateIllustration_outcome userDescription storyContext s :
  fst (generateIllustration env userDescription storyContext s)
  = illustrator_answer env (painted s) userDescription storyContext.
Proof.
  run. unfold illustrator_answer. cbn.
  destruct (models_generateContent env _ _) as [response|e]; [|reflexivity].
  destruct (first_inline (response_parts response)); reflexivity.
Qed.

Lemma writer_answer_resolved session message response :
  writer_answer env session message = Resolved response ->
  exists c text,
    session = Some c /\ chat_sendMessage env c message = Resolved text /\
    response = (if truthy text then render text else writer_fallback).
Proof.
  unfold writer_answer. destruct session as [c|]; [|discriminate].
  destruct (chat_sendMessage env c message) as [text|e] eqn:E; [|discriminate].
  intros [= <-]. eauto.
Qed.

End Clients.

(** X28. In any state, [sendMessageToWriter] throws exactly when no chat
    session has been started, and then without making a call, or when the
    underlying [sendMessage] call rejects, and then with that error; when
    the call resolves it returns the text of the response, or the canned
    fallback when that text is undefined or empty. *)
Theorem sendMessageToWriter_contract (env : Env) (message : string)
    (s : State) :
  (forall e,
     fst (sendMessageToWriter env message s) = Rejected e <->
     (chatSession s = None /\ e = "Chat session not initialized.") \/
     (exists c, chatSession s = Some c /\
                chat_sendMessage env c message = Rejected e)) /\
  (forall c text,
     chatSession s = Some c ->
     chat_sendMessage env c message = Resolved text ->
     fst (sendMessageToWriter env message s)
     = Resolved
         match text with
         | None | Some "" =>
             "I'm having trouble writing right now. Let's try again."
         | Some t => t
         end).
Proof.
  rewrite sendMessageToWriter_outcome. unfold writer_answer. split.
  - intros e. destruct (chatSession s) as [c|].
    + destruct (chat_sendMessage env c message) as [text|e'] eqn:E; split.
      * discriminate.
      * intros [[? _]|(c' & [= <-] & Hc)]; congruence.
      * intros [= ->]. right. eauto.
      * intros [[? _]|(c' & [= <-] & Hc)]; congruence.
    + split.
      * intros [= <-]. left. split; reflexivity.
      * intros [[_ ->]|(c & ? & _)]; [reflexivity | discriminate].
  - intros c text -> ->. destruct text as [[|a t]|]; reflexivity.
Qed.

(** A Writer that resolves with an empty text is answered for by the
    fallback. *)
Example silent_writer_falls_back :
  fst (sendMessageToWriter Sample.silent "Once upon a time"
         (mounted Sample.silent))
  = Resolved "I'm having trouble writing right now. Let's try again.".
Proof. reflexivity. Qed.

(** Before the mount effect has started a session, which is before the
    component calls it, the send throws without making a call. *)
Lemma sendMessageToWriter_throws_without_call :
  sendMessageToWriter Sample.all_up "Once upon a time"
    (unmounted Sample.all_up)
  = (Rejected "Chat session not initialized.", unmounted Sample.all_up) /\
  ~ (exists c e,
       chatSession (unmounted Sample.all_up) = Some c /\
       chat_sendMessage Sample.all_up c "Once upon a time" = Rejected e).
Proof.
  split; [reflexivity|]. intros (c & e & Hc & _). discriminate Hc.
Qed.

(** ** 9. The controller *)

(** In the statements below, that a client call of a submit succeeds or
    fails is read off at the state [s] in which the submit starts.  By
    [sendMessageToWriter_outcome] the Writer's answer depends on the state
    through the session variable only, and by
    [generateIllustration_outcome] the Illustrator's through the earlier
    prompts only; the handler changes neither before it makes the call. *)

Section Controller.

Variable env : Env.

(** C4. A submit in phase Setup whose Writer call succeeds appends exactly
    two records, User/Text with the user's text and then Assistant/Text
    with the Writer's result, stores that result in lastChapterText, ends
    in phase WaitingForArt, and the message it sent to the Writer is
    "The story is about: {text}. Let's begin!". *)
Theorem setup_success text s response :
  appState s = Setup ->
  fst (sendMessageToWriter env (setup_prompt text) s) = Resolved response ->
  let s' := snd (handleUserSend env text s) in
  messages s' = messages s ++
    [ stamped env (draws s) (ticks s) User Text text;
      stamped env (S (draws s)) (S (ticks s)) Assistant Text response ] /\
  lastChapterText s' = response /\
  appState s' = WaitingForArt /\
  exists c,
    chatSession s = Some c /\
    chatSession s' =
      Some {| chat_id := chat_id c;
              sent := sent c ++
                ["The story is about: " +:+ text +:+ ". Let's begin!"] |}.
Proof.
  intros Hphase Hw. rewrite sendMessageToWriter_outcome in Hw.
  apply writer_answer_resolved in Hw as (c & t & Hc & Hsend & ->).
  unfold setup_prompt in Hsend.
  run. rewrite Hphase. cbn. rewrite Hc. cbn. unfold setup_prompt.
  rewrite Hsend. cbn. rewrite <- app_assoc.
  repeat split. exists c. split; reflexivity.
Qed.

(** C6. A submit in phase Setup whose Writer call fails returns normally
    (the error is caught), appends the User/Text record followed by an
    Assistant/Text record with the retry message, and ends in phase
    Setup. *)
Theorem setup_failure text s e :
  appState s = Setup ->
  fst (sendMessageToWriter env (setup_prompt text) s) = Rejected e ->
  let s' := snd (handleUserSend env text s) in
  fst (handleUserSend env text s) = Resolved tt /\
  messages s' = messages s ++
    [ stamped env (draws s) (ticks s) User Text text;
      stamped env (S (draws s)) (S (ticks s)) Assistant Text
        "I encountered an issue starting the story. Please try again." ] /\
  appState s' = Setup.
Proof.
  intros Hphase Hw. rewrite sendMessageToWriter_outcome in Hw.
  unfold writer_answer, setup_prompt in Hw.
  run. rewrite Hphase. cbn. unfold setup_prompt.
  destruct (chatSession s) as [c|]; cbn.
  - destruct (chat_sendMessage env c _) as [t|e']; [discriminate|].
    cbn. rewrite <- app_assoc. repeat split.
  - rewrite <- app_assoc. repeat split.
Qed.

(** C2. A submit in phase Writing or Painting changes nothing: the handler
    returns at once and the whole state, log and phase included, is as
    before. *)
Theorem busy_submit_ignored text s :
  appState s = Writing \/ appState s = Painting ->
  handleUserSend env text s = (Resolved tt, s).
Proof.
  run. intros [-> | ->]; reflexivity.
Qed.

(** C3. A submit in phase WaitingForArt for which the Illustrator and then
    the Writer succeed appends exactly three records, User/Text with the
    user's text, Assistant/Image with the image and Assistant/Text with the
    new chapter, ends in phase WaitingForArt, and lastChapterText is the
    payload of that last record. *)
Theorem art_success text s imageUrl response :
  appState s = WaitingForArt ->
  fst (generateIllustration env text (lastChapterText s) s)
    = Resolved imageUrl ->
  fst (sendMessageToWriter env (nextChapterPrompt text) s)
    = Resolved response ->
  let s' := snd (handleUserSend env text s) in
  messages s' = messages s ++
    [ stamped env (draws s) (ticks s) User Text text;
      stamped env (S (draws s)) (S (ticks s)) Assistant Image imageUrl;
      stamped env (S (S (draws s))) (S (S (ticks s))) Assistant Text
        response ] /\
  appState s' = WaitingForArt /\
  lastChapterText s' = response.
Proof.
  intros Hphase Hi Hw.
  rewrite generateIllustration_outcome in Hi. unfold illustrator_answer in Hi.
  rewrite sendMessageToWriter_outcome in Hw. unfold writer_answer in Hw.
  art_cases Hphase.
  injection Hi as <-. injection Hw as <-.
  rewrite <- !app_assoc. repeat split.
Qed.

(** C1. A submit in phase WaitingForArt for which the Illustrator succeeds
    and the chained Writer call fails returns normally; the log gains the
    User/Text record, then the Assistant/Image record with the image, then
    an Assistant/Text failure notice; the final phase is WaitingForArt. *)
Theorem art_partial_failure text s imageUrl e :
  appState s = WaitingForArt ->
  fst (generateIllustration env text (lastChapterText s) s)
    = Resolved imageUrl ->
  fst (sendMessageToWriter env (nextChapterPrompt text) s) = Rejected e ->
  let s' := snd (handleUserSend env text s) in
  fst (handleUserSend env text s) = Resolved tt /\
  messages s' = messages s ++
    [ stamped env (draws s) (ticks s) User Text text;
      stamped env (S (draws s)) (S (ticks s)) Assistant Image imageUrl;
      stamped env (S (S (draws s))) (S (S (ticks s))) Assistant Text
        "I was unable to generate that illustration. Could you provide a different description?" ] /\
  appState s' = WaitingForArt.
Proof.
  intros Hphase Hi Hw.
  rewrite generateIllustration_outcome in Hi. unfold illustrator_answer in Hi.
  rewrite sendMessageToWriter_outcome in Hw. unfold writer_answer in Hw.
  art_cases Hphase.
  all: injection Hi as <-; rewrite <- !app_assoc; repeat split.
Qed.

(** C5. A submit in phase WaitingForArt for which the Illustrator fails
    sends nothing to the Writer (the chat session, which records every
    message sent, is as before, and no chat is created), appends exactly
    two records, User/Text and then an Assistant/Text apology, and ends in
    phase WaitingForArt. *)
Theorem art_failure text s e :
  appState s = WaitingForArt ->
  fst (generateIllustration env text (lastChapterText s) s) = Rejected e ->
  let s' := snd (handleUserSend env text s) in
  chatSession s' = chatSession s /\
  chats s' = chats s /\
  messages s' = messages s ++
    [ stamped env (draws s) (ticks s) User Text text;
      stamped env (S (draws s)) (S (ticks s)) Assistant Text
        "I was unable to generate that illustration. Could you provide a different description?" ] /\
  appState s' = WaitingForArt.
Proof.
  intros Hphase Hi.
  rewrite generateIllustration_outcome in Hi. unfold illustrator_answer in Hi.
  art_cases Hphase.
  all: rewrite <- !app_assoc; repeat split.
Qed.

(** C10. On each failure path of a submit, namely the Writer failing in
    phase Setup, the Illustrator failing in phase WaitingForArt, or the
    chained Writer call failing after a successful illustration,
    lastChapterText is what it was before the submit. *)
Theorem failure_keeps_lastChapterText text s :
  (appState s = Setup /\
   exists e, fst (sendMessageToWriter env (setup_prompt text) s)
             = Rejected e) \/
  (appState s = WaitingForArt /\
   exists e, fst (generateIllustration env text (lastChapterText s) s)
             = Rejected e) \/
  (appState s = WaitingForArt /\
   (exists imageUrl,
      fst (generateIllustration env text (lastChapterText s) s)
      = Resolved imageUrl) /\
   exists e, fst (sendMessageToWriter env (nextChapterPrompt text) s)
             = Rejected e) ->
  lastChapterText (snd (handleUserSend env text s)) = lastChapterText s.
Proof.
  intros [(Hphase & e & Hw) | [(Hphase & e & Hi) | (Hphase & (u & Hi) & e & Hw)]].
  - rewrite sendMessageToWriter_outcome in Hw. unfold writer_answer in Hw.
    run. rewrite Hphase. cbn.
    destruct (chatSession s) as [c|]; cbn; [|reflexivity].
    destruct (chat_sendMessage env c _); [discriminate | reflexivity].
  - rewrite generateIllustration_outcome in Hi. unfold illustrator_answer in Hi.
    art_cases Hphase; reflexivity.
  - rewrite generateIllustration_outcome in Hi. unfold illustrator_answer in Hi.
    rewrite sendMessageToWriter_outcome in Hw. unfold writer_answer in Hw.
    art_cases Hphase; reflexivity.
Qed.

(** C7. Whatever the state before, [handleNewStory] leaves a log that
    consists of the greeting alone, phase Setup, an empty lastChapterText,
    and a session variable that holds a chat created by this very call,
    through which nothing has been sent. *)
Theorem newStory_resets s :
  let s' := snd (handleNewStory env s) in
  fst (handleNewStory env s) = Resolved tt /\
  messages s' = [INITIAL_MESSAGE env] /\
  length (messages s') = 1 /\
  appState s' = Setup /\
  lastChapterText s' = "" /\
  chatSession s' = Some {| chat_id := chats s; sent := [] |} /\
  chats s' = S (chats s).
Proof. repeat split. Qed.

(** *** Invariants of the reachable states *)

(** X5. No exception propagates out of a submit, in any phase and
    whatever the two services answer. *)
Lemma handleUserSend_returns text s :
  fst (handleUserSend env text s) = Resolved tt.
Proof.
  run. destruct (appState s); cbn; answers; reflexivity.
Qed.

(** A submit appends records whose ids come from consecutive draws. *)
Lemma handleUserSend_log text s :
  let s' := snd (handleUserSend env text s) in
  exists n,
    draws s' = draws s + n /\
    id <$> messages s' =
      (id <$> messages s) ++
      ((fun d => id_of (Math_random env d)) <$> seq (draws s) n).
Proof.
  run. destruct (appState s); cbn; answers.
  all: rewrite ?fmap_app; cbn; rewrite <- ?app_assoc; cbn.
  all: first [ by (exists 0; rewrite Nat.add_0_r, app_nil_r)
             | by (exists 2; split; [lia|])
             | by (exists 3; split; [lia|]) ].
Qed.

(** A submit keeps the identity of the session and creates no chat. *)
Lemma handleUserSend_session text s :
  let s' := snd (handleUserSend env text s) in
  chats s' = chats s /\
  chat_id <$> chatSession s' = chat_id <$> chatSession s.
Proof.
  run. destruct (appState s); cbn; answers; split; try done.
  all: by match goal with H : chatSession _ = _ |- _ => rewrite H end.
Qed.

Lemma reachable_log s :
  reachable env s ->
  exists k,
    k <= draws s /\
    id <$> messages s =
      "init" :: ((fun d => id_of (Math_random env d)) <$>
                 seq k (draws s - k)).
Proof.
  induction 1 as [|text s _ (k & Hk & IH)|s _ _].
  - exists 0. by split.
  - destruct (handleUserSend_log text s) as (n & Hd & Hm).
    exists k. split; [lia|].
    rewrite Hm, IH, Hd. cbn. f_equal.
    replace (draws s + n - k) with ((draws s - k) + n) by lia.
    rewrite seq_app, fmap_app. do 3 f_equal. lia.
  - exists (draws s). cbn. rewrite Nat.sub_diag. by split.
Qed.

(** In a reachable state the session variable holds a chat, and its
    creation number is below the number of chats created. *)
Lemma reachable_session s :
  reachable env s ->
  exists c, chatSession s = Some c /\ chat_id c < chats s.
Proof.
  induction 1 as [|text s _ (c & Hc & IH)|s _ _].
  - eexists. split; [reflexivity|]. cbn. lia.
  - destruct (handleUserSend_session text s) as [Hn Hid].
    revert Hn Hid. generalize (snd (handleUserSend env text s)) as s'.
    intros s' Hn Hid. rewrite Hc in Hid.
    destruct (chatSession s') as [c'|]; [|discriminate].
    injection Hid as Hid. exists c'. split; [reflexivity|]. lia.
  - eexists. split; [reflexivity|]. cbn. lia.
Qed.

(** X25. In a reachable state a session has been started, so there the
    Writer Client fails exactly when the underlying call does, and with
    the error of that call. *)
Lemma reachable_writer_failure message s e :
  reachable env s ->
  fst (sendMessageToWriter env message s) = Rejected e <->
  exists c, chatSession s = Some c /\
            chat_sendMessage env c message = Rejected e.
Proof.
  intros (c & Hc & _)%reachable_session.
  rewrite sendMessageToWriter_outcome, Hc. cbn. split.
  - destruct (chat_sendMessage env c message) eqn:E; [discriminate|].
    intros [= ->]. eauto.
  - intros (c' & [= <-] & ->). reflexivity.
Qed.

(** X26. The chat that [handleNewStory] installs in a reachable state is
    not the one that was there. *)
Lemma newStory_session_differs s :
  reachable env s ->
  chat_id <$> chatSession (snd (handleNewStory env s))
  <> chat_id <$> chatSession s.
Proof.
  intros (c & Hc & Hlt)%reachable_session. rewrite Hc. cbn.
  intros [= Heq]. lia.
Qed.

End Controller.

(** C9, the claim as stated fails: when two draws of [Math.random] are
    both one half, the two records of the first chapter get the same id. *)
Lemma first_chapter_ids_collide :
  reachable Sample.halves (Sample.first_chapter Sample.halves) /\
  id <$> messages (Sample.first_chapter Sample.halves) = ["init"; "i"; "i"] /\
  ~ NoDup (id <$> messages (Sample.first_chapter Sample.halves)).
Proof.
  split; [apply reachable_send, reachable_mounted|].
  split; [reflexivity|].
  change (~ NoDup ["init"; "i"; "i"]).
  rewrite !NoDup_cons. intros (_ & Hi & _). apply Hi. left.
Qed.

(** ** 10. The scenarios, run *)

(** Scenario A: the topic "a pirate adventure" in the mounted component,
    the Writer answering "Chapter One". *)
Lemma scenario_first_chapter :
  length (messages (Sample.first_chapter Sample.all_up)) = 3 /\
  appState (Sample.first_chapter Sample.all_up) = WaitingForArt /\
  lastChapterText (Sample.first_chapter Sample.all_up) = "Chapter One" /\
  chatSession (Sample.first_chapter Sample.all_up)
  = Some {| chat_id := 0;
            sent := ["The story is about: a pirate adventure. Let's begin!"] |}.
Proof.
  destruct (setup_success Sample.all_up "a pirate adventure"
              (mounted Sample.all_up) "Chapter One")
    as (Hm & Hl & Ha & c & Hc & Hc'); [reflexivity..|].
  injection Hc as <-.
  unfold Sample.first_chapter. rewrite Hm, Hl, Ha, Hc'.
  repeat split.
Defined.

(** The Writer is down when the topic is submitted. *)
Lemma scenario_writer_down :
  fst (handleUserSend Sample.no_writer "a pirate adventure"
         (mounted Sample.no_writer)) = Resolved tt /\
  length (messages (Sample.first_chapter Sample.no_writer)) = 3 /\
  appState (Sample.first_chapter Sample.no_writer) = Setup.
Proof.
  destruct (setup_failure Sample.no_writer "a pirate adventure"
              (mounted Sample.no_writer) "503 Service Unavailable")
    as (Hr & Hm & Ha); [reflexivity..|].
  unfold Sample.first_chapter. rewrite Hr, Hm, Ha. repeat split.
Defined.

(** Scenario C: a submit while the first chapter is being written. *)
Lemma scenario_busy :
  handleUserSend Sample.all_up "ignored"
    (set_appState Writing (mounted Sample.all_up))
  = (Resolved tt, set_appState Writing (mounted Sample.all_up)).
Proof.
  apply (busy_submit_ignored Sample.all_up "ignored"
           (set_appState Writing (mounted Sample.all_up))).
  left. reflexivity.
Defined.

(** A full cycle after the first chapter. *)
Lemma scenario_illustrated_chapter :
  let s := Sample.first_chapter Sample.all_up in
  let s' := snd (handleUserSend Sample.all_up "a ship at sunset" s) in
  (fun m => (sender m, type m, content m)) <$> drop 3 (messages s')
  = [ (User, Text, "a ship at sunset");
      (Assistant, Image, "data:image/png;base64,iVBORw0KGgo=");
      (Assistant, Text, "Chapter One") ] /\
  length (messages s') = 6 /\
  appState s' = WaitingForArt /\
  lastChapterText s' = "Chapter One".
Proof.
  destruct (art_success Sample.all_up "a ship at sunset"
              (Sample.first_chapter Sample.all_up)
              "data:image/png;base64,iVBORw0KGgo=" "Chapter One")
    as (Hm & Ha & Hl); [reflexivity..|].
  cbv zeta. rewrite Hm, Ha, Hl. repeat split.
Defined.

(** The Writer fails after the illustration was made. *)
Lemma scenario_image_kept :
  let s := Sample.first_chapter Sample.one_chapter in
  let s' := snd (handleUserSend Sample.one_chapter "a ship at sunset" s) in
  (fun m => (sender m, type m, content m)) <$> drop 3 (messages s')
  = [ (User, Text, "a ship at sunset");
      (Assistant, Image, "data:image/png;base64,iVBORw0KGgo=");
      (Assistant, Text,
       "I was unable to generate that illustration. Could you provide a different description?") ] /\
  appState s' = WaitingForArt.
Proof.
  destruct (art_partial_failure Sample.one_chapter "a ship at sunset"
              (Sample.first_chapter Sample.one_chapter)
              "data:image/png;base64,iVBORw0KGgo=" "503 Service Unavailable")
    as (_ & Hm & Ha); [reflexivity..|].
  cbv zeta. rewrite Hm, Ha. repeat split.
Defined.

(** Scenario B: the Illustrator returns no image. *)
Lemma scenario_no_image :
  let s := Sample.first_chapter Sample.no_painter in
  let s' := snd (handleUserSend Sample.no_painter "a ship at sunset" s) in
  chatSession s' = chatSession s /\
  length (messages s') = length (messages s) + 2 /\
  appState s' = WaitingForArt.
Proof.
  destruct (art_failure Sample.no_painter "a ship at sunset"
              (Sample.first_chapter Sample.no_painter) "No image generated.")
    as (Hc & _ & Hm & Ha); [reflexivity..|].
  cbv zeta. rewrite Hc, Hm, Ha. repeat split.
Defined.

(** The chapter text survives the failed second chapter. *)
Lemma scenario_chapter_text_kept :
  lastChapterText
    (snd (handleUserSend Sample.one_chapter "a ship at sunset"
            (Sample.first_chapter Sample.one_chapter)))
  = "Chapter One".
Proof.
  rewrite (failure_keeps_lastChapterText Sample.one_chapter
             "a ship at sunset" (Sample.first_chapter Sample.one_chapter)).
  - reflexivity.
  - right. right. split; [reflexivity|]. split.
    + exists "data:image/png;base64,iVBORw0KGgo=". reflexivity.
    + exists "503 Service Unavailable". reflexivity.
Defined.

(** ** 11. The two clients, further *)

Section ClientEffects.

Variable env : Env.

Lemma first_inline_Some ps uri :
  first_inline ps = Some uri <->
  exists pre blob post,
    ps = pre ++ {| GenAI.inlineData := Some blob |} :: post /\
    Forall (fun p => GenAI.inlineData p = None) pre /\
    uri = "data:" +:+ render (GenAI.mimeType blob) +:+ ";base64,"
          +:+ render (GenAI.data blob).
Proof.
  induction ps as [|[[blob|]] ps IH]; cbn.
  - split; [discriminate|]. intros (pre & blob & post & H & _).
    by destruct pre.
  - split.
    + intros [= <-]. exists [], blob, ps. by repeat split.
    + intros (pre & blob' & post & H & Hpre & ->).
      destruct pre as [|p pre]; cbn in H.
      * by injection H as <- _.
      * injection H as <- _. by apply Forall_cons_1 in Hpre as [[=] _].
  - rewrite IH. split.
    + intros (pre & blob & post & -> & Hpre & ->).
      exists ({| GenAI.inlineData := None |} :: pre), blob, post.
      repeat split. by constructor.
    + intros (pre & blob & post & H & Hpre & ->).
      destruct pre as [|p pre]; cbn in H; [discriminate|].
      injection H as <- ->. apply Forall_cons_1 in Hpre as [_ Hpre].
      by exists pre, blob, post.
Qed.

Lemma first_inline_None ps :
  first_inline ps = None <->
  Forall (fun p => GenAI.inlineData p = None) ps.
Proof.
  induction ps as [|[[blob|]] ps IH]; cbn.
  - split; [constructor | done].
  - split; [discriminate|]. by intros [[=] _]%Forall_cons_1.
  - rewrite IH. split; [by constructor | by intros [_ ?]%Forall_cons_1].
Qed.

(** X1. [generateIllustration] resolves exactly when the call resolves and
    some part of the first candidate carries inline data; the result is
    then the data URI of the first such part, the parts before it being
    skipped. *)
Theorem generateIllustration_resolves userDescription storyContext s uri :
  fst (generateIllustration env userDescription storyContext s)
    = Resolved uri <->
  exists response pre blob post,
    models_generateContent env (painted s)
      (illustration_prompt userDescription storyContext)
      = Resolved response /\
    response_parts response
      = pre ++ {| GenAI.inlineData := Some blob |} :: post /\
    Forall (fun p => GenAI.inlineData p = None) pre /\
    uri = "data:" +:+ render (GenAI.mimeType blob) +:+ ";base64,"
          +:+ render (GenAI.data blob).
Proof.
  rewrite generateIllustration_outcome. unfold illustrator_answer.
  destruct (models_generateContent env _ _) as [response|e]; split.
  - destruct (first_inline _) as [u|] eqn:E; [|discriminate].
    intros [= <-]. apply first_inline_Some in E as (pre & blob & post & ?).
    by exists response, pre, blob, post.
  - intros (r & pre & blob & post & [= <-] & Hparts).
    assert (first_inline (response_parts response) = Some uri) as ->; [|done].
    apply first_inline_Some. by exists pre, blob, post.
  - discriminate.
  - by intros (r & pre & blob & post & [=] & _).
Qed.

(** X2. [generateIllustration] rejects exactly when the call rejects, and
    then with the same error, or when the call resolves with a response
    whose first candidate has no part with inline data (no candidate, no
    content or no parts included), and then with "No image generated.". *)
Theorem generateIllustration_rejects userDescription storyContext s e :
  fst (generateIllustration env userDescription storyContext s)
    = Rejected e <->
  models_generateContent env (painted s)
    (illustration_prompt userDescription storyContext) = Rejected e \/
  exists response,
    models_generateContent env (painted s)
      (illustration_prompt userDescription storyContext)
      = Resolved response /\
    Forall (fun p => GenAI.inlineData p = None) (response_parts response) /\
    e = "No image generated.".
Proof.
  rewrite generateIllustration_outcome. unfold illustrator_answer.
  destruct (models_generateContent env _ _) as [response|e']; split.
  - destruct (first_inline _) eqn:E; [discriminate|].
    intros [= <-]. right. exists response.
    by apply first_inline_None in E.
  - intros [[=]|(r & [= <-] & Hnone & ->)].
    by apply first_inline_None in Hnone as ->.
  - intros [= ->]. by left.
  - intros [[= ->]|(r & [=] & _)]. done.
Qed.

(** X3. [generateIllustration] records its prompt and, when it rejects,
    writes one line to the console; it writes nothing there when it
    resolves, and it leaves the log, the phase, the chapter text, the chat
    session and the counters of the random source and of the clock as they
    were. *)
Theorem generateIllustration_effects userDescription storyContext s :
  let r := generateIllustration env userDescription storyContext s in
  painted (snd r)
    = painted s ++ [illustration_prompt userDescription storyContext] /\
  messages (snd r) = messages s /\
  appState (snd r) = appState s /\
  lastChapterText (snd r) = lastChapterText s /\
  chatSession (snd r) = chatSession s /\
  chats (snd r) = chats s /\
  draws (snd r) = draws s /\
  ticks (snd r) = ticks s /\
  match fst r with
  | Resolved _ => console (snd r) = console s
  | Rejected _ => exists line, console (snd r) = console s ++ [line]
  end.
Proof.
  run. cbn. answers; repeat split; eauto.
Qed.

(** X4. [sendMessageToWriter] touches the chat session and the console
    only.  Without a session it changes nothing; with one, the message is
    recorded in the session whether the call resolves or not, and a
    rejected call writes one line to the console. *)
Theorem sendMessageToWriter_effects message s :
  let r := sendMessageToWriter env message s in
  messages (snd r) = messages s /\
  appState (snd r) = appState s /\
  lastChapterText (snd r) = lastChapterText s /\
  chats (snd r) = chats s /\
  painted (snd r) = painted s /\
  draws (snd r) = draws s /\
  ticks (snd r) = ticks s /\
  match chatSession s with
  | None => snd r = s
  | Some c =>
      chatSession (snd r)
        = Some {| chat_id := chat_id c; sent := sent c ++ [message] |} /\
      match fst r with
      | Resolved _ => console (snd r) = console s
      | Rejected _ => exists line, console (snd r) = console s ++ [line]
      end
  end.
Proof.
  run. cbn. destruct (chatSession s) as [c|] eqn:Hc; cbn.
  - destruct (chat_sendMessage env c message); cbn; repeat split; eauto.
  - repeat split.
Qed.

End ClientEffects.

(** ** 12. The controller, further *)

Section ControllerMore.

Variable env : Env.

(** What a submit appends, case by case: nothing in a busy phase, else the
    user's record and one or two records of the assistant. *)
Lemma handleUserSend_appends text s :
  let s' := snd (handleUserSend env text s) in
  let d := draws s in
  let t := ticks s in
  exists new,
    messages s' = messages s ++ new /\
    draws s' = d + length new /\
    ticks s' = t + length new /\
    ((new = [] /\ App_disabled (appState s) = true) \/
     (App_disabled (appState s) = false /\
      ((exists reply,
          new = [ stamped env d t User Text text;
                  stamped env (S d) (S t) Assistant Text reply ]) \/
       (exists image reply,
          new = [ stamped env d t User Text text;
                  stamped env (S d) (S t) Assistant Image image;
                  stamped env (S (S d)) (S (S t)) Assistant Text reply ])))).
Proof.
  run. destruct (appState s); cbn; answers.
  all: rewrite <- ?app_assoc; cbn.
  all: first
    [ exists []; rewrite app_nil_r, !Nat.add_0_r; by eauto 10
    | eexists; split; [reflexivity|]; cbn;
      split; [lia|]; split; [lia|]; right; split; [reflexivity|]; eauto ].
Qed.

(** X6. A submit never removes, reorders or alters a record: the log
    before it is a prefix of the log after it, and at most three records
    are added. *)
Theorem submit_appends_only text s :
  messages s `prefix_of` messages (snd (handleUserSend env text s)) /\
  length (messages (snd (handleUserSend env text s)))
    <= length (messages s) + 3.
Proof.
  destruct (handleUserSend_appends text s)
    as (new & -> & _ & _ & [[-> _] | [_ [[r ->] | (i & r & ->)]]]).
  all: split; [by eexists | rewrite length_app; cbn; lia].
Qed.

(** X7. A submit in phase Setup or WaitingForArt is always answered: it
    appends the user's text as a User/Text record, followed by one or two
    records of the assistant, the last of which is a text. *)
Theorem accepted_submit_answered text s :
  appState s = Setup \/ appState s = WaitingForArt ->
  exists replies final,
    messages (snd (handleUserSend env text s))
      = messages s ++
        stamped env (draws s) (ticks s) User Text text :: replies /\
    Forall (fun m => sender m = Assistant) replies /\
    1 <= length replies <= 2 /\
    last replies = Some final /\ type final = Text.
Proof.
  intros Hphase.
  destruct (handleUserSend_appends text s)
    as (new & -> & _ & _ & [[_ Hbusy] | [_ [[r ->] | (i & r & ->)]]]).
  - by destruct Hphase as [Hp | Hp]; rewrite Hp in Hbusy.
  - eexists _, _. split; [reflexivity|].
    repeat split; [by repeat constructor | cbn; lia..].
  - eexists _, _. split; [reflexivity|].
    repeat split; [by repeat constructor | cbn; lia..].
Qed.

(** X8. The Illustrator is called once by a submit in phase
    WaitingForArt, with the prompt built from the user's text and the
    chapter text held before the submit, and by no other submit. *)
Theorem submit_illustrator_prompt text s :
  painted (snd (handleUserSend env text s))
  = painted s ++
    match appState s with
    | WaitingForArt => [illustration_prompt text (lastChapterText s)]
    | _ => []
    end.
Proof.
  run. destruct (appState s); cbn; answers; by rewrite ?app_nil_r.
Qed.

(** X9. A submit sends at most one message to the Writer: the opening
    prompt in phase Setup, the follow-up prompt that quotes the user's
    text in phase WaitingForArt once the Illustrator has resolved, and
    none otherwise.  The message is recorded in the session whether the
    Writer answers or fails, and the session keeps its identity. *)
Theorem submit_writer_messages text s :
  chatSession (snd (handleUserSend env text s))
  = (fun c =>
       {| chat_id := chat_id c;
          sent := sent c ++
            match appState s with
            | Setup => [setup_prompt text]
            | WaitingForArt =>
                match
                  fst (generateIllustration env text (lastChapterText s) s)
                with
                | Resolved _ => [nextChapterPrompt text]
                | Rejected _ => []
                end
            | _ => []
            end |}) <$> chatSession s.
Proof.
  rewrite generateIllustration_outcome. unfold illustrator_answer.
  run. destruct (appState s); cbn; answers.
  all: try match goal with H : chatSession _ = _ |- _ => rewrite H end.
  all: cbn; rewrite ?app_nil_r; try reflexivity.
  all: destruct (chatSession s) as [[]|]; cbn; by rewrite ?app_nil_r.
Qed.

(** *** Invariants of the resting states *)

Lemma handleUserSend_at_rest text s :
  at_rest s -> at_rest (snd (handleUserSend env text s)).
Proof.
  unfold at_rest, chapter_shown.
  intros [[Hp Hl] | [Hp (m & Hm & Hs & Ht & Hc)]].
  - run. rewrite Hp. cbn. answers.
    all: first
      [ by left
      | right; split; [reflexivity|]; eexists; split;
        [ apply elem_of_app; right; apply list_elem_of_singleton;
          reflexivity
        | by repeat split ] ].
  - run. rewrite Hp. cbn. answers.
    all: right; split; [reflexivity|].
    all: first
      [ eexists; split;
        [ apply elem_of_app; right; apply list_elem_of_singleton;
          reflexivity
        | by repeat split ]
      | exists m; split;
        [by repeat (apply elem_of_app; left) | by repeat split] ].
Qed.

Lemma reachable_at_rest s : reachable env s -> at_rest s.
Proof.
  induction 1 as [|text s _ IH|s _ _].
  - by left.
  - by apply handleUserSend_at_rest.
  - by left.
Qed.

(** X10. The component never rests in a busy phase: after the mount and
    after every completed submit or reset the phase is Setup or
    WaitingForArt. *)
Theorem reachable_never_busy s :
  reachable env s ->
  appState s = Setup \/ appState s = WaitingForArt.
Proof.
  intros [[-> _] | [-> _]]%reachable_at_rest; eauto.
Qed.


(** The clock readings behind the records of a reachable log. *)
Lemma reachable_timestamps s :
  reachable env s ->
  exists k,
    1 <= k <= ticks s /\
    timestamp <$> messages s
    = Date_now env 0 :: (Date_now env <$> seq k (ticks s - k)).
Proof.
  induction 1 as [|text s _ (k & Hk & IH)|s _ (k & Hk & _)].
  - exists 1. split; [cbn; lia | reflexivity].
  - destruct (handleUserSend_appends text s)
      as (new & Hm & _ & Ht & Hnew).
    exists k. rewrite Hm, Ht, fmap_app, IH. split; [lia|].
    replace (ticks s + length new - k)
      with ((ticks s - k) + length new) by lia.
    rewrite seq_app, fmap_app. cbn. do 2 f_equal.
    replace (k + (ticks s - k)) with (ticks s) by lia.
    destruct Hnew as [[-> _] | [_ [[r ->] | (i & r & ->)]]]; reflexivity.
  - exists (ticks s). cbn. rewrite Nat.sub_diag. split; [lia | reflexivity].
Qed.

End ControllerMore.

(** ** 13. Sessions, timestamps and ids *)

Section Bookkeeping.

Variable env : Env.

(** X14. As long as the clock does not run backwards, the records of a
    reachable log carry timestamps in the order of the log: a record
    never has a later timestamp than a record after it. *)
Theorem reachable_timestamps_ordered s i j mi mj :
  reachable env s ->
  (forall a b, a <= b -> (Date_now env a <= Date_now env b)%Z) ->
  i <= j ->
  messages s !! i = Some mi ->
  messages s !! j = Some mj ->
  (timestamp mi <= timestamp mj)%Z.
Proof.
  intros (k & Hk & Hts)%reachable_timestamps Hmono Hij Hi Hj.
  assert (forall n m, messages s !! n = Some m ->
            exists a, timestamp m = Date_now env a /\
                      (n = 0 /\ a = 0 \/ 0 < n /\ a = k + (n - 1)))
    as Hread.
  { intros n m Hn.
    assert ((timestamp <$> messages s) !! n = Some (timestamp m)) as Hl
      by (by rewrite list_lookup_fmap, Hn).
    rewrite Hts in Hl. destruct n as [|n].
    - cbn in Hl. injection Hl as <-. eauto.
    - change ((Date_now env <$> seq k (ticks s - k)) !! n
              = Some (timestamp m)) in Hl.
      rewrite list_lookup_fmap in Hl.
      destruct (seq k (ticks s - k) !! n) as [a|] eqn:Ha; [|discriminate].
      injection Hl as <-. apply lookup_seq in Ha as [-> _].
      exists (k + n). split; [reflexivity|]. right. split; [lia|].
      f_equal. lia. }
  destruct (Hread i mi Hi) as (a & -> & Ha).
  destruct (Hread j mj Hj) as (b & -> & Hb).
  apply Hmono. lia.
Qed.

(** X15. In every reachable state the session variable holds the chat
    that was created last: chats that a reset has replaced are not used
    again. *)
Theorem reachable_session_latest s :
  reachable env s ->
  exists c, chatSession s = Some c /\ S (chat_id c) = chats s.
Proof.
  induction 1 as [|text s _ (c & Hc & IH)|s _ _].
  - by eexists.
  - destruct (handleUserSend_session env text s) as [Hn Hid].
    revert Hn Hid. generalize (snd (handleUserSend env text s)) as s'.
    intros s' Hn Hid. rewrite Hc in Hid.
    destruct (chatSession s') as [c'|]; [|discriminate].
    injection Hid as Hid. exists c'. split; [reflexivity|]. lia.
  - by eexists.
Qed.

End Bookkeeping.

Lemma substring_length n m (s : string) :
  String.length (String.substring n m s) = min m (String.length s - n).
Proof.
  revert n m. induction s as [|a s IH]; intros [|n] [|m];
    simpl String.substring; simpl String.length; rewrite ?IH; lia.
Qed.

Lemma substring_app n m (r x : string) :
  n + m <= String.length r ->
  String.substring n m (r +:+ x) = String.substring n m r.
Proof.
  revert n m. induction r as [|a r IH]; intros [|n] [|m];
    simpl String.length; simpl String.append; simpl String.substring;
    intros H; try lia.
  - by destruct x.
  - reflexivity.
  - f_equal. apply IH. lia.
  - apply IH. lia.
  - apply IH. lia.
Qed.

(** X16. An id has at most nine characters, namely the characters of the
    rendering of the random number after its first two, as far as there
    are any: a rendering of fewer than three characters, as "0" for the
    number zero, gives the empty id. *)
Theorem id_of_length (rendering : string) :
  String.length (id_of rendering) = min 9 (String.length rendering - 2).
Proof. apply substring_length. Qed.

(** X17. The id ignores what follows the eleventh character of the
    rendering: random numbers whose renderings agree that far get the same
    id. *)
Theorem id_of_truncates (common rest1 rest2 : string) :
  String.length common = 11 ->
  id_of (common +:+ rest1) = id_of (common +:+ rest2).
Proof.
  intros H. unfold id_of. rewrite !substring_app by lia. reflexivity.
Qed.

(** ** 14. The input area *)

Section Form.

Variable trim : string -> string.
Variable env : Env.

(** X18. The submit button is disabled exactly when submitting the form
    would do nothing: with the button disabled [handleSubmit] leaves the
    page as it is, and otherwise it hands the trimmed input to [onSend]
    and empties the input. *)
Theorem handleSubmit_button onSend disabled p :
  handleSubmit trim onSend disabled p
  = if button_disabled trim disabled p then p
    else {| app := snd (onSend (trim (input p)) (app p)); input := "" |}.
Proof.
  unfold handleSubmit, button_disabled.
  by destruct (truthy _), disabled.
Qed.

(** X19. Submitting the form with a blank input, or in a busy phase,
    changes nothing at all: the state of [App] is untouched and the input
    keeps its text. *)
Theorem submitForm_dropped p :
  trim (input p) = "" \/
  appState (app p) = Writing \/ appState (app p) = Painting ->
  submitForm trim env p = p.
Proof.
  unfold submitForm, handleSubmit.
  intros [-> | [-> | ->]]; [reflexivity | |]; by rewrite andb_false_r.
Qed.

(** X20. Submitting the form with a non-blank input in phase Setup or
    WaitingForArt empties the input and appends a User/Text record whose
    content is the trimmed input, followed by the assistant's records. *)
Theorem submitForm_accepted p :
  trim (input p) <> "" ->
  appState (app p) = Setup \/ appState (app p) = WaitingForArt ->
  input (submitForm trim env p) = "" /\
  exists replies,
    messages (app (submitForm trim env p))
    = messages (app p) ++
      stamped env (draws (app p)) (ticks (app p)) User Text
        (trim (input p)) :: replies /\
    replies <> [] /\
    Forall (fun m => sender m = Assistant) replies.
Proof.
  intros Hne Hphase. unfold submitForm, handleSubmit.
  assert (truthy (Some (trim (input p))) = true) as ->
    by (by destruct (trim (input p))).
  assert (App_disabled (appState (app p)) = false) as Hidle
    by (by destruct Hphase as [-> | ->]).
  rewrite Hidle. cbn [andb negb app input]. split; [reflexivity|].
  destruct (handleUserSend_appends env (trim (input p)) (app p))
    as (new & -> & _ & _ & [[_ Hbusy] | [_ [[r ->] | (i & r & ->)]]]).
  - congruence.
  - eexists. split; [reflexivity|]. split; [done | by repeat constructor].
  - eexists. split; [reflexivity|]. split; [done | by repeat constructor].
Qed.

(** Whatever is done on the page, the state of [App] stays among the
    states that the commands reach. *)
Lemma page_reachable_app p :
  page_reachable trim env p -> reachable env (app p).
Proof.
  induction 1 as [|value p _ IH|p _ IH|p _ IH]; cbn.
  - constructor.
  - done.
  - unfold submitForm, handleSubmit.
    destruct (_ && _); [by constructor | done].
  - by constructor.
Qed.

(** X21. No empty message of the user enters the log through the form: on
    every reachable page each User record of the log has a non-empty
    content, which is the trimmed form of what was typed. *)
Theorem page_user_records p :
  page_reachable trim env p ->
  Forall (fun m => sender m = User ->
                   content m <> "" /\ exists typed, content m = trim typed)
    (messages (app p)).
Proof.
  induction 1 as [|value p _ IH|p _ IH|p _ IH]; cbn.
  - by repeat constructor.
  - done.
  - unfold submitForm, handleSubmit.
    destruct (truthy (Some (trim (input p)))) eqn:Ht; [|done].
    destruct (App_disabled _); [done|]. cbn [andb negb app input].
    destruct (handleUserSend_appends env (trim (input p)) (app p))
      as (new & -> & _ & _ & [[-> _] | [_ [[r ->] | (i & r & ->)]]]).
    + by rewrite app_nil_r.
    + apply Forall_app. split; [done|].
      apply Forall_cons. split; [|by repeat constructor].
      intros _. cbn. split; [|by eexists].
      intros Hempty. by rewrite Hempty in Ht.
    + apply Forall_app. split; [done|].
      apply Forall_cons. split; [|by repeat constructor].
      intros _. cbn. split; [|by eexists].
      intros Hempty. by rewrite Hempty in Ht.
  - by repeat constructor.
Qed.

(** X22. On every reachable page the input is enabled: [App] passes
    [disabled = false] to the input area whenever the interface rests. *)
Theorem page_input_enabled p :
  page_reachable trim env p ->
  App_disabled (appState (app p)) = false.
Proof.
  intros [[-> _] | [-> _]]%page_reachable_app%reachable_at_rest; reflexivity.
Qed.

End Form.

(** X23. The button reads "Illustrate", with the paintbrush icon, exactly
    in the phase in which a submit calls the Illustrator. *)
Theorem button_announces_illustration (env : Env) (text : string)
    (s : State) :
  (getButtonText (appState s) = "Illustrate" <->
   painted (snd (handleUserSend env text s)) <> painted s) /\
  (getButtonIcon (appState s) = Paintbrush <->
   painted (snd (handleUserSend env text s)) <> painted s).
Proof.
  assert (painted (snd (handleUserSend env text s)) <> painted s
          <-> appState s = WaitingForArt) as ->.
  { run. destruct (appState s); cbn; answers; split; try done.
    all: intros _ H; apply (f_equal length) in H;
      rewrite length_app in H; cbn in H; lia. }
  destruct (appState s); cbn; split; split; done.
Qed.

(** X24. As [App] wires the input area, the input is focused exactly when
    it is enabled, and its placeholder is one of the two progress notes
    exactly when it is disabled. *)
Theorem input_area_cues (a : AppState) :
  focuses a (App_disabled a) = negb (App_disabled a) /\
  (App_disabled a = true <->
   getPlaceholder a = "StoryBrush is writing..." \/
   getPlaceholder a = "Creating artwork...").
Proof.
  destruct a; cbn; (split; [reflexivity|]); split.
  all: first [ discriminate | by eauto | by intros [|] | done ].
Qed.

(** ** 15. Further scenarios *)

(** The topic is answered by the first chapter. *)
Lemma scenario_topic_answered :
  exists replies final,
    messages (snd (handleUserSend Sample.all_up "a pirate adventure"
                     (mounted Sample.all_up)))
      = messages (mounted Sample.all_up) ++
        stamped Sample.all_up (draws (mounted Sample.all_up))
          (ticks (mounted Sample.all_up)) User Text "a pirate adventure"
        :: replies /\
    Forall (fun m => sender m = Assistant) replies /\
    1 <= length replies <= 2 /\
    last replies = Some final /\ type final = Text.
Proof.
  apply (accepted_submit_answered Sample.all_up "a pirate adventure"
           (mounted Sample.all_up)).
  left. reflexivity.
Defined.

(** After the first chapter the component waits for the art. *)
Lemma scenario_rests_waiting :
  appState (Sample.first_chapter Sample.all_up) = Setup \/
  appState (Sample.first_chapter Sample.all_up) = WaitingForArt.
Proof.
  apply (reachable_never_busy Sample.all_up).
  apply reachable_send, reachable_mounted.
Defined.


(** The topic was submitted before the illustration arrived. *)
Lemma scenario_timestamps :
  (timestamp (stamped Sample.all_up 0 1 User Text "a pirate adventure")
   <= timestamp (stamped Sample.all_up 3 4 Assistant Image
                   "data:image/png;base64,iVBORw0KGgo="))%Z.
Proof.
  apply (reachable_timestamps_ordered Sample.all_up
           (snd (handleUserSend Sample.all_up "a ship at sunset"
                   (Sample.first_chapter Sample.all_up))) 1 4).
  - apply reachable_send, reachable_send, reachable_mounted.
  - intros a b Hab. cbn. lia.
  - lia.
  - reflexivity.
  - reflexivity.
Defined.

(** After a reset the session is the second chat. *)
Lemma scenario_second_chat :
  let s := snd (handleNewStory Sample.all_up
                  (Sample.first_chapter Sample.all_up)) in
  exists c, chatSession s = Some c /\ S (chat_id c) = chats s.
Proof.
  apply (reachable_session_latest Sample.all_up).
  apply reachable_newStory, reachable_send, reachable_mounted.
Defined.

(** Two renderings that differ from the twelfth character on. *)
Lemma scenario_truncated_ids :
  id_of ("0.4fzyo82mv" +:+ "yr") = id_of ("0.4fzyo82mv" +:+ "k1").
Proof.
  apply (id_of_truncates "0.4fzyo82mv" "yr" "k1"). reflexivity.
Defined.

(** A blank input is not submitted. *)
Lemma scenario_blank_input :
  submitForm ascii_trim Sample.all_up (SamplePage.typing "   ")
  = SamplePage.typing "   ".
Proof.
  apply (submitForm_dropped ascii_trim Sample.all_up (SamplePage.typing "   ")).
  left. reflexivity.
Defined.

(** The topic typed with spaces around it is submitted without them. *)
Lemma scenario_trimmed_topic :
  let p := SamplePage.typing "  a pirate adventure " in
  input (submitForm ascii_trim Sample.all_up p) = "" /\
  exists replies,
    messages (app (submitForm ascii_trim Sample.all_up p))
    = messages (app p) ++
      stamped Sample.all_up (draws (app p)) (ticks (app p)) User Text
        (ascii_trim (input p)) :: replies /\
    replies <> [] /\
    Forall (fun m => sender m = Assistant) replies.
Proof.
  apply (submitForm_accepted ascii_trim Sample.all_up
           (SamplePage.typing "  a pirate adventure ")).
  - discriminate.
  - left. reflexivity.
Defined.

Lemma scenario_user_records :
  Forall (fun m => sender m = User ->
                   content m <> "" /\
                   exists typed, content m = ascii_trim typed)
    (messages (app (submitForm ascii_trim Sample.all_up
                      (SamplePage.typing "  a pirate adventure ")))).
Proof.
  apply (page_user_records ascii_trim Sample.all_up).
  apply page_submitted, page_typed, page_mounted.
Defined.

Lemma scenario_input_enabled :
  App_disabled
    (appState (app (submitForm ascii_trim Sample.all_up
                      (SamplePage.typing "  a pirate adventure "))))
  = false.
Proof.
  apply (page_input_enabled ascii_trim Sample.all_up).
  apply page_submitted, page_typed, page_mounted.
Defined.

(** With a session started, the Writer fails because the call does. *)
Lemma scenario_writer_error :
  fst (sendMessageToWriter Sample.no_writer "Once upon a time"
         (mounted Sample.no_writer))
    = Rejected "503 Service Unavailable" <->
  exists c, chatSession (mounted Sample.no_writer) = Some c /\
            chat_sendMessage Sample.no_writer c "Once upon a time"
            = Rejected "503 Service Unavailable".
Proof.
  apply (reachable_writer_failure Sample.no_writer).
  apply reachable_mounted.
Defined.

(** A reset after the first chapter changes the chat. *)
Lemma scenario_new_chat :
  chat_id <$> chatSession (snd (handleNewStory Sample.all_up
                                  (Sample.first_chapter Sample.all_up)))
  <> chat_id <$> chatSession (Sample.first_chapter Sample.all_up).
Proof.
  apply (newStory_session_differs Sample.all_up).
  apply reachable_send, reachable_mounted.
Defined.

(** ** 16. The component with calls pending *)

Ltac run_live :=
  unfold handleUserSend_start, handleUserSend_resume, first_chapter_tail,
    next_chapter_tail, writer_call, writer_settle, illustration_call,
    illustration_settle;
  run.

Section LiveComponent.

Variable env : Env.

(** The handler run to completion is the handler cut at its awaits, each
    call being answered as soon as it is made. *)
Lemma handleUserSend_settled text s :
  live_settle env 0
    (live_settle env 0
       (live_send env text {| current := s; pending := [] |}))
  = {| current := snd (handleUserSend env text s); pending := [] |}.
Proof.
  unfold live_send, live_settle. run_live. cbn [current pending].
  destruct (appState s); cbn; answers; reflexivity.
Qed.

(** The states that whole runs of the handlers reach are states of the
    live component, with nothing pending. *)
Lemma reachable_live s :
  reachable env s -> live_reachable env {| current := s; pending := [] |}.
Proof.
  induction 1 as [|text s _ IH|s _ IH].
  - constructor.
  - rewrite <- handleUserSend_settled. by do 3 constructor.
  - by apply (live_reachable_newStory env) in IH.
Qed.

(** What one step of the handler does to the log, the session and the
    chapter text. *)
Lemma handleUserSend_start_step text s :
  let s' := fst (handleUserSend_start env text s) in
  (exists n,
     draws s' = draws s + n /\
     id <$> messages s' =
       (id <$> messages s) ++
       ((fun d => id_of (Math_random env d)) <$> seq (draws s) n)) /\
  (is_Some (chatSession s) -> is_Some (chatSession s')) /\
  (lastChapterText s = "" \/ chapter_shown s ->
   lastChapterText s' = "" \/ chapter_shown s').
Proof.
  unfold chapter_shown. run_live. destruct (appState s); cbn.
  all: destruct (chatSession s) as [c|]; cbn.
  all: split; [|split; [by eauto|]].
  all: rewrite ?fmap_app; cbn; rewrite <- ?app_assoc; cbn.
  all: try by (exists 0; rewrite Nat.add_0_r, app_nil_r).
  all: try by (exists 1; split; [lia|]).
  all: try by (exists 2; split; [lia|]).
  all: intros [Hl | (m & Hm & Hrest)]; [by left | right].
  all: exists m; split; [|done].
  all: by repeat (apply elem_of_app; left).
Qed.

Lemma handleUserSend_resume_step p s :
  let s' := fst (handleUserSend_resume env p s) in
  (exists n,
     draws s' = draws s + n /\
     id <$> messages s' =
       (id <$> messages s) ++
       ((fun d => id_of (Math_random env d)) <$> seq (draws s) n)) /\
  (is_Some (chatSession s) -> is_Some (chatSession s')) /\
  (lastChapterText s = "" \/ chapter_shown s ->
   lastChapterText s' = "" \/ chapter_shown s').
Proof.
  unfold chapter_shown. run_live.
  destruct p as [[text|e]|text [response|e]|[text|e]]; cbn.
  all: try match goal with
    | |- context [first_inline ?ps] => destruct (first_inline ps); cbn
    end.
  all: try match goal with
    | |- context [match chatSession ?s with _ => _ end] =>
        destruct (chatSession s); cbn
    end.
  all: split; [|split; [by eauto|]].
  all: rewrite ?fmap_app; cbn; rewrite <- ?app_assoc; cbn.
  all: try by (exists 1; split; [lia|]).
  all: try by (exists 2; split; [lia|]).
  all: intros Hshown.
  all: first
    [ right; eexists; split;
      [ apply elem_of_app; right; apply list_elem_of_singleton;
        reflexivity
      | by repeat split ]
    | destruct Hshown as [Hl | (m & Hm & Hrest)]; [by left | right];
      exists m; split; [|done];
      by repeat (apply elem_of_app; left) ].
Qed.

(** One invariant for the three facts. *)
Lemma live_reachable_invariant l :
  live_reachable env l ->
  (exists k,
     k <= draws (current l) /\
     id <$> messages (current l) =
       "init" :: ((fun d => id_of (Math_random env d)) <$>
                  seq k (draws (current l) - k))) /\
  is_Some (chatSession (current l)) /\
  (lastChapterText (current l) = "" \/ chapter_shown (current l)).
Proof.
  assert (forall s s' : State,
    ((exists n,
        draws s' = draws s + n /\
        id <$> messages s' =
          (id <$> messages s) ++
          ((fun d => id_of (Math_random env d)) <$> seq (draws s) n)) /\
     (is_Some (chatSession s) -> is_Some (chatSession s')) /\
     (lastChapterText s = "" \/ chapter_shown s ->
      lastChapterText s' = "" \/ chapter_shown s')) ->
    ((exists k,
        k <= draws s /\
        id <$> messages s =
          "init" :: ((fun d => id_of (Math_random env d)) <$>
                     seq k (draws s - k))) /\
     is_Some (chatSession s) /\
     (lastChapterText s = "" \/ chapter_shown s)) ->
    ((exists k,
        k <= draws s' /\
        id <$> messages s' =
          "init" :: ((fun d => id_of (Math_random env d)) <$>
                     seq k (draws s' - k))) /\
     is_Some (chatSession s') /\
     (lastChapterText s' = "" \/ chapter_shown s'))) as Hstep.
  { intros s s' ((n & Hd & Hm) & Hc & Hl) ((k & Hk & IH) & IHc & IHl).
    split; [|by auto]. exists k. split; [lia|].
    rewrite Hm, IH, Hd. cbn. f_equal.
    replace (draws s + n - k) with ((draws s - k) + n) by lia.
    rewrite seq_app, fmap_app. do 3 f_equal. lia. }
  induction 1 as [|text l _ IH|l _ IH|i l _ IH].
  - split; [by exists 0|]. split; [by eexists | by left].
  - unfold live_send.
    pose proof (handleUserSend_start_step text (current l)) as H.
    destruct (handleUserSend_start env text (current l)) as [s' p].
    by apply (Hstep (current l)).
  - split; [|split; [by eexists | by left]].
    exists (draws (current l)). cbn. rewrite Nat.sub_diag. by split.
  - unfold live_settle. destruct (pending l !! i) as [p|]; [|done].
    pose proof (handleUserSend_resume_step p (current l)) as H.
    destruct (handleUserSend_resume env p (current l)) as [s' q].
    by apply (Hstep (current l)).
Qed.

End LiveComponent.

Section LiveClaims.

Variable env : Env.

(** The log holds the greeting and one record for each draw since the
    last reset, in the order of the draws. *)
Lemma live_log_ids l :
  live_reachable env l ->
  id <$> messages (current l) = "init" :: log_ids env (current l).
Proof.
  intros [(k & Hk & Hids) _]%live_reachable_invariant.
  assert (length (messages (current l)) = S (draws (current l) - k)) as Hlen.
  { rewrite <- (length_fmap id), Hids. cbn.
    by rewrite length_fmap, length_seq. }
  unfold log_ids. rewrite Hlen, Hids. cbn. do 3 f_equal. lia.
Qed.

(** C8. In every state the component goes through, at rest or with calls
    pending, a chat session exists, and the Writer Client's send fails
    exactly when the underlying call on that session rejects, with the
    error of the call; when the call resolves with an undefined or empty
    text the send returns the canned fallback instead of failing, and
    otherwise it returns the text. *)
Theorem writer_fails_exactly_when_call_fails l message :
  live_reachable env l ->
  exists c,
    chatSession (current l) = Some c /\
    (forall e,
       fst (sendMessageToWriter env message (current l)) = Rejected e <->
       chat_sendMessage env c message = Rejected e) /\
    (forall text,
       chat_sendMessage env c message = Resolved text ->
       fst (sendMessageToWriter env message (current l))
       = Resolved
           match text with
           | None | Some "" =>
               "I'm having trouble writing right now. Let's try again."
           | Some t => t
           end).
Proof.
  intros (_ & [c Hc] & _)%live_reachable_invariant.
  exists c. split; [done|].
  rewrite sendMessageToWriter_outcome, Hc. cbn.
  destruct (chat_sendMessage env c message) as [text|e']; split.
  - intros e. split; discriminate.
  - intros t [= <-]. by destruct text as [[|a t]|].
  - intros e. split; by intros [= ->].
  - discriminate.
Qed.

(** C9 (as amended). In every state the component goes through, the ids
    of the records in the log are pairwise distinct provided that the ids
    generated for the records now in the log, that is, by the draws made
    since the last reset, are pairwise distinct and none of them is
    "init", the id of the greeting. *)
Theorem log_ids_distinct l :
  live_reachable env l ->
  NoDup ("init" :: log_ids env (current l)) ->
  NoDup (id <$> messages (current l)).
Proof.
  intros Hl Hnodup. by rewrite live_log_ids.
Qed.

(** X12. In every state the component goes through, whatever the phase
    and also when a reset has landed inside a submit, lastChapterText is
    either empty or the content of an Assistant/Text record of the log. *)
Theorem chapter_text_empty_or_shown l :
  live_reachable env l ->
  lastChapterText (current l) = "" \/
  exists m, m ∈ messages (current l) /\ sender m = Assistant /\
            type m = Text /\ content m = lastChapterText (current l).
Proof.
  by intros (_ & _ & H)%live_reachable_invariant.
Qed.

(** A step that leaves the component in a busy phase leaves a call
    pending. *)
Lemma handleUserSend_start_busy text s :
  App_disabled (appState (fst (handleUserSend_start env text s))) = true ->
  is_Some (snd (handleUserSend_start env text s)) \/
  App_disabled (appState s) = true.
Proof.
  run_live. destruct (appState s) eqn:Hp; cbn; eauto.
  destruct (chatSession s); cbn; eauto.
Qed.

Lemma handleUserSend_resume_busy p s :
  App_disabled (appState (fst (handleUserSend_resume env p s))) = true ->
  is_Some (snd (handleUserSend_resume env p s)).
Proof.
  run_live. destruct p as [[text|e]|text [response|e]|[text|e]]; cbn;
    try done.
  destruct (first_inline (response_parts response)); cbn; [|done].
  destruct (chatSession s); cbn; [eauto | done].
Qed.

Lemma live_busy_pending l :
  live_reachable env l ->
  App_disabled (appState (current l)) = true -> pending l <> [].
Proof.
  induction 1 as [|text l _ IH|l _ IH|i l _ IH].
  - done.
  - unfold live_send.
    pose proof (handleUserSend_start_busy text (current l)) as H.
    destruct (handleUserSend_start env text (current l)) as [s' p].
    cbn in *. intros [[q ->] | Hbusy]%H.
    + by destruct (pending l).
    + apply IH in Hbusy. by destruct (pending l).
  - done.
  - unfold live_settle. destruct (pending l !! i) as [p|]; [|done].
    pose proof (handleUserSend_resume_busy p (current l)) as H.
    destruct (handleUserSend_resume env p (current l)) as [s' q].
    cbn in *. intros [r ->]%H. by destruct (delete i (pending l)).
Qed.

(** X27. Also when resets and submits land inside one another, the
    component is in phase Setup or WaitingForArt whenever no call is
    pending: it never stays in Writing or Painting with nothing left to
    end that phase. *)
Theorem live_idle_not_busy l :
  live_reachable env l ->
  pending l = [] ->
  appState (current l) = Setup \/ appState (current l) = WaitingForArt.
Proof.
  intros Hl Hidle. pose proof (live_busy_pending l Hl) as H.
  destruct (appState (current l)); cbn in H; eauto; by destruct H.
Qed.

End LiveClaims.

(** ** 17. Scenarios with calls pending *)

(** New Story is pressed while the first chapter is being written. *)
Lemma scenario_send_after_reset :
  exists c,
    chatSession (current (SampleLive.late_chapter Sample.silent)) = Some c /\
    (forall e,
       fst (sendMessageToWriter Sample.silent "Once upon a time"
              (current (SampleLive.late_chapter Sample.silent)))
         = Rejected e <->
       chat_sendMessage Sample.silent c "Once upon a time" = Rejected e) /\
    (forall text,
       chat_sendMessage Sample.silent c "Once upon a time" = Resolved text ->
       fst (sendMessageToWriter Sample.silent "Once upon a time"
              (current (SampleLive.late_chapter Sample.silent)))
       = Resolved
           match text with
           | None | Some "" =>
               "I'm having trouble writing right now. Let's try again."
           | Some t => t
           end).
Proof.
  apply (writer_fails_exactly_when_call_fails Sample.silent
           (SampleLive.late_chapter Sample.silent) "Once upon a time").
  apply live_reachable_settle, live_reachable_newStory,
    live_reachable_send, live_reachable_mounted.
Defined.

(** The two records of the first story had the same id; the log of the
    second story is not troubled by it. *)
Lemma scenario_ids_after_reset :
  NoDup (id <$> messages
           (current (SampleLive.second_story SampleLive.repeats))).
Proof.
  apply (log_ids_distinct SampleLive.repeats).
  - repeat first [ apply live_reachable_settle
                 | apply live_reachable_send
                 | apply live_reachable_newStory
                 | apply live_reachable_mounted ].
  - apply (bool_decide_unpack _). vm_compute. exact I.
Defined.

(** The chapter that arrives after the reset is the chapter text. *)
Lemma scenario_late_chapter_shown :
  lastChapterText (current (SampleLive.late_chapter Sample.all_up)) = "" \/
  exists m, m ∈ messages (current (SampleLive.late_chapter Sample.all_up)) /\
            sender m = Assistant /\ type m = Text /\
            content m
            = lastChapterText (current (SampleLive.late_chapter Sample.all_up)).
Proof.
  apply (chapter_text_empty_or_shown Sample.all_up).
  apply live_reachable_settle, live_reachable_newStory,
    live_reachable_send, live_reachable_mounted.
Defined.

Lemma scenario_late_chapter_idle :
  appState (current (SampleLive.late_chapter Sample.all_up)) = Setup \/
  appState (current (SampleLive.late_chapter Sample.all_up)) = WaitingForArt.
Proof.
  apply (live_idle_not_busy Sample.all_up).
  - apply live_reachable_settle, live_reachable_newStory,
      live_reachable_send, live_reachable_mounted.
  - reflexivity.
Defined.
